(** * Gyroscope measurements of the trajectory estimator

    A shallow embedding of [taser::measurements::GyroscopeMeasurement]
    (gyroscope_measurement.h): its two constructors, the generic [Measure] and
    [Error] members, the variable-arity residual functor handed to the
    solver, and [AddToEstimator], which registers the parameter blocks of the
    trajectory and of the IMU and submits one residual block.

    The trajectory model, the IMU model and the estimator's
    [AddTrajectoryForTimes] are collaborators of the measurement and are
    taken as parameters (type classes; template parameters in the source).
    The solver's [Problem] is a record of the registered parameter blocks
    and the submitted residual blocks. *)

From Stdlib Require Import Floats.PrimFloat.
From stdpp Require Import base option list vector gmap.

Set Default Proof Using "Type".

(** ** Numeric types *)

(** [double] is the machine's binary64. *)
Abbreviation double := PrimFloat.float (only parsing).

(** The numeric type [T] all generic code is written against: a plain
    [double] for evaluation, a jet for differentiation.  [T(x)] is
    [of_double x]. *)
Class Scalar (T : Type) : Type := {
  of_double : double -> T;
  tadd : T -> T -> T;
  tsub : T -> T -> T;
  tmul : T -> T -> T
}.

#[export] Instance Scalar_double : Scalar double := {|
  of_double := fun x => x;
  tadd := PrimFloat.add;
  tsub := PrimFloat.sub;
  tmul := PrimFloat.mul
|}.

(** [Eigen::Matrix<T,3,1>]: a column of exactly three coefficients. *)
Abbreviation Matrix31 T := (vec T 3) (only parsing).
(** [Eigen::Vector3d]. *)
Abbreviation Vector3 := (vec double 3) (only parsing).

Section Matrix.
Context {T : Type} `{Scalar T}.

(** [v.cast<T>()]: coefficient-wise conversion. *)
Definition cast (v : Vector3) : Matrix31 T := vmap of_double v.

(** [a - b] on columns: coefficient-wise subtraction. *)
Definition msub (a b : Matrix31 T) : Matrix31 T := vzip_with tsub a b.
End Matrix.

(** ** Failing calls

    A call either returns or throws; what it did to the state before
    throwing stays done.  [Exc S A] is a computation over a state [S] that
    returns an [A] or throws an [Error]. *)

Inductive Error_t : Set :=
  | OutOfSupportError
  | RegistrationConsistencyError.

Inductive outcome (A : Type) : Type :=
  | Ok (a : A)
  | Throw (e : Error_t).
Arguments Ok {A} a.
Arguments Throw {A} e.

Definition Exc (S A : Type) : Type := S -> S * outcome A.

#[export] Instance Exc_ret {S} : MRet (Exc S) := fun A a s => (s, Ok a).

#[export] Instance Exc_bind {S} : MBind (Exc S) := fun A B k c s =>
  match c s with
  | (s', Ok a) => k a s'
  | (s', Throw e) => (s', Throw e)
  end.

(** Run a computation over a component [get] of the state, writing the
    component back with [set], whether it returned or threw. *)
Definition zoom {S S' A} (get : S -> S') (set : S' -> S -> S) (c : Exc S' A) : Exc S A :=
  fun s => let '(s', r) := c (get s) in (set s' s, r).

(** ** The solver's Problem *)

(** Storage locations are addresses. *)
Abbreviation ptr := N (only parsing).

(** [ceres::CostFunction]: what the Problem sees of a residual.  [evaluate]
    is the functor's templated call operator: from the array of parameter
    blocks and the output buffer to the success flag and the buffer after
    the call. *)
Record CostFunction : Type := {
  evaluate : forall T : Type, Scalar T -> list (list T) -> list T -> bool * list T;
  parameter_block_sizes : list nat;
  num_residuals : nat
}.

Inductive LossFunction : Set := TrivialLoss.

Record ResidualBlock : Type := {
  cost_function : CostFunction;
  loss_function : option LossFunction;
  parameter_blocks : list ptr
}.

(** The Problem: the registry of parameter blocks (storage location to
    size) and the residual blocks in the order they were added. *)
Record Problem : Type := {
  parameter_block_map : gmap N nat;
  residual_blocks : list ResidualBlock
}.

Definition Problem_empty : Problem :=
  {| parameter_block_map := ∅; residual_blocks := [] |}.

(** [problem.AddParameterBlock(values, size)]: registers the block once;
    a second registration of the same storage with the same size changes
    nothing, with another size it is an error. *)
Definition AddParameterBlock (values : ptr) (sz : nat) : Exc Problem unit := fun p =>
  match parameter_block_map p !! values with
  | None =>
      ({| parameter_block_map := <[values := sz]> (parameter_block_map p);
          residual_blocks := residual_blocks p |}, Ok ())
  | Some sz' =>
      if decide (sz' = sz) then (p, Ok ()) else (p, Throw RegistrationConsistencyError)
  end.

(** [problem.AddResidualBlock(cost_function, loss_function, parameter_blocks)]. *)
Definition AddResidualBlock (cf : CostFunction) (loss : option LossFunction)
    (blocks : list ptr) : Exc Problem unit := fun p =>
  ({| parameter_block_map := parameter_block_map p;
      residual_blocks := residual_blocks p
        ++ [ {| cost_function := cf; loss_function := loss; parameter_blocks := blocks |} ] |},
   Ok ()).

(** The array of parameter blocks the solver hands to a residual block's
    functor: one block per storage location of the residual block, in its
    order, each read with its declared size.  [load p n] is the content of
    the [n] parameters stored at [p], in the numeric type [T]. *)
Definition block_values {T} (load : ptr -> nat -> list T) (rb : ResidualBlock) : list (list T) :=
  zip_with load (parameter_blocks rb) (parameter_block_sizes (cost_function rb)).

(** ** Entities *)

(** Modelled from the spec: [entity::ParameterInfo<double>] (declared
    outside gyroscope_measurement.h), one (storage location, size) pair per
    parameter block. *)
Record ParameterInfo : Set := {
  data : ptr;
  size : nat
}.

(** Modelled from the spec: [entity::ParameterInfo<double>::ToParameterBlocks],
    the storage locations of the list, in the order of the list. *)
Definition ToParameterBlocks (v : list ParameterInfo) : list ptr := data <$> v.

(** [time_init_t]: a braced list of time spans. *)
Abbreviation time_init_t := (list (double * double)) (only parsing).

(** What the measurement uses of a trajectory or sensor model [E]: its
    [Meta] type (default-constructible, with [NumParameters()]) and
    [AddToProblem], which registers the entity's blocks for the given
    spans with the Problem and fills the Meta and the list of parameter
    infos, both passed by reference. *)
Class Entity (E : Type) : Type := {
  Meta : Type;
  Meta_new : Meta;
  NumParameters : Meta -> nat;
  AddToProblem : E -> time_init_t -> Meta -> list ParameterInfo ->
                 Exc Problem (Meta * list ParameterInfo)
}.
Arguments Meta E {_}.
Arguments Meta_new E {_}.

(** Modelled from the spec: the typed view [entity::Map<E, T>(params, meta)]
    of an entity over the parameter array from [params] on, described by
    [meta] ([type::Trajectory<E, T>], [type::Imu<E, T>]). *)
Record View (E : Type) `{Entity E} (T : Type) : Type := Map {
  view_params : list (list T);
  view_meta : Meta E
}.
Arguments Map {E _ T} _ _.
Arguments view_params {E _ T} _.
Arguments view_meta {E _ T} _.

(** What the measurement uses of an IMU model over a trajectory model:
    [imu.Gyroscope<TrajectoryModel>(trajectory, t)], generic in [T]. *)
Class ImuModel (Imu Traj : Type) `{Entity Imu} `{Entity Traj} : Type := {
  Gyroscope : forall T : Type, Scalar T -> View Imu T -> View Traj T -> T -> Matrix31 T
}.
Arguments Gyroscope {Imu Traj _ _ _ T _} _ _ _.

(** Modelled from the spec: [taser::TrajectoryEstimator<TrajectoryModel>]
    (trajectory_estimator.h), which owns the Problem and shares the
    trajectory. *)
Record TrajectoryEstimator (Traj : Type) : Type := {
  trajectory_ : Traj;
  problem_ : Problem
}.
Arguments trajectory_ {Traj} _.
Arguments problem_ {Traj} _.

Definition set_problem {Traj} (p : Problem) (est : TrajectoryEstimator Traj) :
    TrajectoryEstimator Traj :=
  {| trajectory_ := trajectory_ est; problem_ := p |}.

(** [estimator.problem()] is a reference to the estimator's Problem. *)
Definition on_problem {Traj A} (c : Exc Problem A) : Exc (TrajectoryEstimator Traj) A :=
  zoom problem_ set_problem c.

(** [estimator.AddTrajectoryForTimes(times, meta, parameter_info)], a member
    of the estimator declared in trajectory_estimator.h: it works on the
    estimator and fills the Meta and the list of parameter infos, both
    passed by reference.  The measurement calls it as it is given. *)
Class EstimatorModel (Traj : Type) `{Entity Traj} : Type :=
  AddTrajectoryForTimes : time_init_t -> Meta Traj -> list ParameterInfo ->
                          Exc (TrajectoryEstimator Traj) (Meta Traj * list ParameterInfo).

(** Modelled from the spec: the out-of-support contract of the trajectory's
    registration.  [in_support est span] says that the span lies within
    the valid support of the estimator's trajectory.  A registration for
    times of which one span lies outside the support fails with
    [OutOfSupportError], and the failed registration leaves the estimator,
    its registry of parameter blocks and its Problem as they were. *)
Definition out_of_support_contract {Traj} `{EstimatorModel Traj}
    (in_support : TrajectoryEstimator Traj -> double * double -> bool) : Prop :=
  forall (times : time_init_t) (meta : Meta Traj) (parameter_info : list ParameterInfo)
         (est : TrajectoryEstimator Traj),
    forallb (in_support est) times = false ->
    AddTrajectoryForTimes times meta parameter_info est = (est, Throw OutOfSupportError).

(** Modelled from the spec: an estimator whose [AddTrajectoryForTimes] asks
    its trajectory to register the blocks for [times] with the estimator's
    Problem. *)
Definition delegate_to_trajectory {Traj} `{Entity Traj} : EstimatorModel Traj :=
  fun times meta parameter_info est =>
    on_problem (AddToProblem (trajectory_ est) times meta parameter_info) est.

(** ** [ceres::DynamicAutoDiffCostFunction<Functor>] *)

(** A functor type: its templated [operator()]. *)
Class CostFunctor (F : Type) : Type :=
  call : F -> forall T : Type, Scalar T -> list (list T) -> list T -> bool * list T.

(** The cost function holds a pointer to its functor, the list of the
    sizes of the parameter blocks declared so far and the number of
    residuals.  The functor object lives in the [functor_] cell alone: a
    write through the pointer is a write to that field. *)
Record DynamicAutoDiffCostFunction (F : Type) : Type := {
  functor_ : F;
  block_sizes : list nat;
  n_residuals : nat
}.
Arguments functor_ {F} _.
Arguments block_sizes {F} _.
Arguments n_residuals {F} _.

Section DynamicAutoDiffCostFunction.
Context {F : Type}.

(** [new ceres::DynamicAutoDiffCostFunction<F>(functor)]. *)
Definition DynamicAutoDiffCostFunction_new (f : F) : DynamicAutoDiffCostFunction F :=
  {| functor_ := f; block_sizes := []; n_residuals := 0 |}.

(** [cost_function->AddParameterBlock(size)]. *)
Definition CostFunction_AddParameterBlock (sz : nat) (cf : DynamicAutoDiffCostFunction F) :
    DynamicAutoDiffCostFunction F :=
  {| functor_ := functor_ cf; block_sizes := block_sizes cf ++ [sz];
     n_residuals := n_residuals cf |}.

(** [cost_function->SetNumResiduals(n)]. *)
Definition SetNumResiduals (n : nat) (cf : DynamicAutoDiffCostFunction F) :
    DynamicAutoDiffCostFunction F :=
  {| functor_ := functor_ cf; block_sizes := block_sizes cf; n_residuals := n |}.

(** A write to the functor through the pointer the cost function holds. *)
Definition with_functor (g : F -> F) (cf : DynamicAutoDiffCostFunction F) :
    DynamicAutoDiffCostFunction F :=
  {| functor_ := g (functor_ cf); block_sizes := block_sizes cf;
     n_residuals := n_residuals cf |}.

(** The cost function as the Problem sees it (its base class). *)
Definition as_CostFunction `{CostFunctor F} (cf : DynamicAutoDiffCostFunction F) :
    CostFunction :=
  {| evaluate := call (functor_ cf);
     parameter_block_sizes := block_sizes cf;
     num_residuals := n_residuals cf |}.
End DynamicAutoDiffCostFunction.

(** ** The measurement *)

(** [GyroscopeMeasurement<ImuModel>].  [imu_] is a shared pointer to the IMU;
    no member mutates the IMU object, so the field holds the object. *)
Record GyroscopeMeasurement (Imu : Type) : Type := {
  imu_ : Imu;
  t : double;
  w : Vector3;
  weight : double
}.
Arguments imu_ {Imu} _.
Arguments t {Imu} _.
Arguments w {Imu} _.
Arguments weight {Imu} _.

(** [GyroscopeMeasurement(imu, t, w, weight)]. *)
Definition GyroscopeMeasurement_new4 {Imu} (imu : Imu) (t0 : double) (w0 : Vector3)
    (weight0 : double) : GyroscopeMeasurement Imu :=
  {| imu_ := imu; t := t0; w := w0; weight := weight0 |}.

(** [GyroscopeMeasurement(imu, t, w)], delegating to the constructor above. *)
Definition GyroscopeMeasurement_new3 {Imu} (imu : Imu) (t0 : double) (w0 : Vector3) :
    GyroscopeMeasurement Imu :=
  GyroscopeMeasurement_new4 imu t0 w0 1%float.

Section Measurement.
Context {Imu Traj : Type} `{ImuModel Imu Traj} `{!EstimatorModel Traj}.

Section Generic.
Context {T : Type} `{Scalar T}.

(** [Measure<TrajectoryModel, T>(imu, trajectory)]. *)
Definition Measure (m : GyroscopeMeasurement Imu)
    (imu : View Imu T) (trajectory : View Traj T) : Matrix31 T :=
  Gyroscope imu trajectory (of_double (t m)).

(** [Error<TrajectoryModel, T>(imu, trajectory)]. *)
Definition Error (m : GyroscopeMeasurement Imu)
    (imu : View Imu T) (trajectory : View Traj T) : Matrix31 T :=
  msub (cast (w m)) (Measure m imu trajectory).
End Generic.

(** [Residual<TrajectoryModel>]: the measurement (a const reference) and
    the two Metas, default-constructed. *)
Record Residual : Type := {
  measurement : GyroscopeMeasurement Imu;
  imu_meta : Meta Imu;
  trajectory_meta : Meta Traj
}.

Definition Residual_new (m : GyroscopeMeasurement Imu) : Residual :=
  {| measurement := m; imu_meta := Meta_new Imu; trajectory_meta := Meta_new Traj |}.

Definition set_imu_meta (meta : Meta Imu) (r : Residual) : Residual :=
  {| measurement := measurement r; imu_meta := meta; trajectory_meta := trajectory_meta r |}.

Definition set_trajectory_meta (meta : Meta Traj) (r : Residual) : Residual :=
  {| measurement := measurement r; imu_meta := imu_meta r; trajectory_meta := meta |}.

(** [Residual::operator()<T>(params, residual)].  [params] is the array
    of parameter blocks and [&params[offset]] the array from [offset] on;
    [residual] is the output buffer, of which the assignment to the
    mapped column writes the coefficients 0, 1 and 2. *)
Definition Residual_call (r : Residual) (T : Type) `{Scalar T}
    (params : list (list T)) (residual : list T) : bool * list T :=
  let offset := 0 in
  let trajectory := Map (E := Traj) (drop offset params) (trajectory_meta r) in
  let offset := offset + NumParameters (trajectory_meta r) in
  let imu := Map (E := Imu) (drop offset params) (imu_meta r) in
  let residual := list_inserts 0 (vec_to_list (Error (measurement r) imu trajectory)) residual in
  (true, residual).

#[export] Instance Residual_functor : CostFunctor Residual := Residual_call.

(** The objects [AddToEstimator] can reach: the measurement itself and
    the estimator it is given by reference. *)
Record Env : Type := {
  this : GyroscopeMeasurement Imu;
  estimator : TrajectoryEstimator Traj
}.

Definition set_estimator (est : TrajectoryEstimator Traj) (env : Env) : Env :=
  {| this := this env; estimator := est |}.

Definition on_estimator {A} (c : Exc (TrajectoryEstimator Traj) A) : Exc Env A :=
  zoom estimator set_estimator c.

Definition get_this : Exc Env (GyroscopeMeasurement Imu) := fun env => (env, Ok (this env)).

(** [AddToEstimator<TrajectoryModel>(estimator)]. *)
Definition AddToEstimator : Exc Env unit :=
  self ← get_this;
  let residual := Residual_new self in
  let cost_function := DynamicAutoDiffCostFunction_new residual in
  let parameter_info : list ParameterInfo := [] in
  (* Add trajectory to problem *)
  '(meta, parameter_info) ← on_estimator
    (AddTrajectoryForTimes [(t self, t self)]
       (trajectory_meta (functor_ cost_function)) parameter_info);
  let cost_function := with_functor (set_trajectory_meta meta) cost_function in
  (* Add IMU to problem *)
  '(meta, parameter_info) ← on_estimator (on_problem
    (AddToProblem (imu_ self) [(t self, t self)]
       (imu_meta (functor_ cost_function)) parameter_info));
  let cost_function := with_functor (set_imu_meta meta) cost_function in
  (* Let cost function know about the number and sizes of parameters dynamically added *)
  let cost_function :=
    foldl (fun cf pi => CostFunction_AddParameterBlock (size pi) cf)
      cost_function parameter_info in
  (* Add measurement *)
  let cost_function := SetNumResiduals 3 cost_function in
  on_estimator (on_problem
    (AddResidualBlock (as_CostFunction cost_function) None
       (ToParameterBlocks parameter_info))).
End Measurement.
Arguments Residual Imu Traj {_ _}.
Arguments Env Imu Traj : clear implicits.

(** ** Concrete models

    Small trajectory and IMU models, with the shape of the ones the
    estimator is instantiated with, on which the theorems below are run. *)
Module Models.

(** A trajectory of constant angular velocity: one block of three
    parameters stored at [storage], valid on the span from [t_min] to
    [t_max].  Its Meta counts the blocks it describes.  [AddToProblem]
    refuses a span outside the support with [OutOfSupportError], before it
    registers anything. *)
Record SegmentTrajectory : Set := {
  storage : ptr;
  t_min : double;
  t_max : double
}.

Definition in_support (tr : SegmentTrajectory) (span : double * double) : bool :=
  PrimFloat.leb (t_min tr) (fst span) && PrimFloat.leb (snd span) (t_max tr).

Definition throw {S A} (e : Error_t) : Exc S A := fun s => (s, Throw e).

Definition check_support (tr : SegmentTrajectory) (times : time_init_t) : Exc Problem unit :=
  if forallb (in_support tr) times then mret () else throw OutOfSupportError.

Definition SegmentTrajectory_AddToProblem (tr : SegmentTrajectory) (times : time_init_t)
    (meta : nat) (parameters : list ParameterInfo) : Exc Problem (nat * list ParameterInfo) :=
  _ ← check_support tr times;
  _ ← AddParameterBlock (storage tr) 3;
  mret (1, parameters ++ [ {| data := storage tr; size := 3 |} ]).

#[export] Instance SegmentTrajectory_entity : Entity SegmentTrajectory := {|
  Meta := nat;
  Meta_new := 0;
  NumParameters := fun meta => meta;
  AddToProblem := SegmentTrajectory_AddToProblem
|}.

#[export] Instance SegmentTrajectory_estimator : EstimatorModel SegmentTrajectory :=
  delegate_to_trajectory.

(** An IMU with a gyroscope bias: one block of three parameters stored
    at [bias_storage], valid at every time. *)
Record BiasImu : Set := {
  bias_storage : ptr
}.

Definition BiasImu_AddToProblem (imu : BiasImu) (times : time_init_t)
    (meta : nat) (parameters : list ParameterInfo) : Exc Problem (nat * list ParameterInfo) :=
  _ ← AddParameterBlock (bias_storage imu) 3;
  mret (1, parameters ++ [ {| data := bias_storage imu; size := 3 |} ]).

#[export] Instance BiasImu_entity : Entity BiasImu := {|
  Meta := nat;
  Meta_new := 0;
  NumParameters := fun meta => meta;
  AddToProblem := BiasImu_AddToProblem
|}.

(** Coefficient [i] of block [b] of a view's parameters. *)
Definition coef {E} `{Entity E} {T} `{Scalar T} (v : View E T) (b i : nat) : T :=
  default (of_double 0%float) (view_params v !! b ≫= (.!! i)).

(** The predicted angular rate: the trajectory's angular velocity plus
    the IMU's bias. *)
#[export] Instance BiasImu_model : ImuModel BiasImu SegmentTrajectory := {|
  Gyroscope := fun T _ imu trajectory _ =>
    [# tadd (coef trajectory 0 0) (coef imu 0 0);
       tadd (coef trajectory 0 1) (coef imu 0 1);
       tadd (coef trajectory 0 2) (coef imu 0 2) ]
|}.

(** The trajectory is stored at address 16 and supported on [0, 10]; the
    bias at address 64. *)
Definition trajectory0 : SegmentTrajectory :=
  {| storage := 16; t_min := 0%float; t_max := 10%float |}.

Definition imu0 : BiasImu := {| bias_storage := 64 |}.

Definition estimator0 : TrajectoryEstimator SegmentTrajectory :=
  {| trajectory_ := trajectory0; problem_ := Problem_empty |}.

(** A reading of (1, 0, 0) rad/s at time 2, inside the support, and one at
    time 12, outside. *)
Definition reading : Vector3 := [# 1%float; 0%float; 0%float ].

Definition measurement0 : GyroscopeMeasurement BiasImu :=
  GyroscopeMeasurement_new3 imu0 2%float reading.

Definition measurement_late : GyroscopeMeasurement BiasImu :=
  GyroscopeMeasurement_new3 imu0 12%float reading.

Definition env0 : Env BiasImu SegmentTrajectory :=
  {| this := measurement0; estimator := estimator0 |}.

(** The late reading, given to the same estimator. *)
Definition env_late : Env BiasImu SegmentTrajectory :=
  {| this := measurement_late; estimator := estimator0 |}.

(** The parameter values in memory: zero everywhere. *)
Definition zeros (p : ptr) (n : nat) : list double := replicate n 0%float.

End Models.

(** ** Further models

    A Problem in which the bias block is already registered with another
    size, and dual numbers as a second numeric type. *)
Module MoreModels.
Import Models.

(** The storage of the bias of [imu0], registered with five parameters. *)
Definition problem_conflict : Problem :=
  {| parameter_block_map := {[ 64%N := 5 ]}; residual_blocks := [] |}.

Definition estimator_conflict : TrajectoryEstimator SegmentTrajectory :=
  {| trajectory_ := trajectory0; problem_ := problem_conflict |}.

Definition env_conflict : Env BiasImu SegmentTrajectory :=
  {| this := measurement0; estimator := estimator_conflict |}.

(** A dual number: a value and its derivative in one direction. *)
Record Dual : Set := {
  value : double;
  derivative : double
}.

#[export] Instance Scalar_Dual : Scalar Dual := {|
  of_double := fun x => {| value := x; derivative := 0%float |};
  tadd := fun a b =>
    {| value := PrimFloat.add (value a) (value b);
       derivative := PrimFloat.add (derivative a) (derivative b) |};
  tsub := fun a b =>
    {| value := PrimFloat.sub (value a) (value b);
       derivative := PrimFloat.sub (derivative a) (derivative b) |};
  tmul := fun a b =>
    {| value := PrimFloat.mul (value a) (value b);
       derivative := PrimFloat.add (PrimFloat.mul (value a) (derivative b))
                       (PrimFloat.mul (derivative a) (value b)) |}
|}.

(** The trajectory's block with the derivative taken along its first
    coefficient, and the bias block held constant. *)
Definition dual_params : list (list Dual) :=
  [ [ {| value := 0.5%float; derivative := 1%float |};
      {| value := 0%float; derivative := 0%float |};
      {| value := 0%float; derivative := 0%float |} ];
    [ {| value := 0.25%float; derivative := 0%float |};
      {| value := 0%float; derivative := 0%float |};
      {| value := 0%float; derivative := 0%float |} ] ].

Definition dual_buffer : list Dual :=
  replicate 3 {| value := 5%float; derivative := 5%float |}.

(** The residual functor of [measurement0] after registration. *)
Definition residual0 : Residual BiasImu SegmentTrajectory :=
  set_trajectory_meta (Traj := SegmentTrajectory) 1
    (set_imu_meta (Traj := SegmentTrajectory) 1 (Residual_new measurement0)).

End MoreModels.


(** * Properties of the measurement *)

Section Properties.
Context {Imu Traj : Type} `{ImuModel Imu Traj} `{!EstimatorModel Traj}.

(** ** The constructors *)

(** C9: the three-argument constructor builds the measurement the
    four-argument constructor builds with weight 1.0: the weight is 1.0 and
    the IMU, the time and the reading are the ones given. *)
Theorem default_weight_is_one (imu : Imu) (t0 : double) (w0 : Vector3) :
  GyroscopeMeasurement_new3 imu t0 w0 = GyroscopeMeasurement_new4 imu t0 w0 1%float
  /\ weight (GyroscopeMeasurement_new3 imu t0 w0) = 1%float
  /\ imu_ (GyroscopeMeasurement_new3 imu t0 w0) = imu
  /\ t (GyroscopeMeasurement_new3 imu t0 w0) = t0
  /\ w (GyroscopeMeasurement_new3 imu t0 w0) = w0.
Proof. repeat split. Qed.

(** ** Measure and Error *)

Lemma Measure_eq {T} `{Scalar T} (m : GyroscopeMeasurement Imu)
    (imu : View Imu T) (trajectory : View Traj T) :
  Measure m imu trajectory = Gyroscope imu trajectory (of_double (t m)).
Proof. reflexivity. Qed.

(** C3: every coefficient of [Error] is the observed coefficient, cast to
    [T], minus the coefficient [Measure] predicts from the IMU's gyroscope
    model at the time of the measurement; the error has three coefficients,
    whatever the parameter blocks behind the two views. *)
Theorem Error_is_observed_minus_predicted {T} `{Scalar T}
    (m : GyroscopeMeasurement Imu) (imu : View Imu T) (trajectory : View Traj T) :
  (forall i : fin 3,
     Error m imu trajectory !!! i
     = tsub (of_double (w m !!! i)) (Measure m imu trajectory !!! i))
  /\ Measure m imu trajectory = Gyroscope imu trajectory (of_double (t m))
  /\ length (vec_to_list (Error m imu trajectory)) = 3.
Proof.
  split; [|split].
  - intros i. unfold Error, msub, cast.
    by rewrite vlookup_zip_with, vlookup_map.
  - apply Measure_eq.
  - apply length_vec_to_list.
Qed.

Lemma Error_weight_irrelevant {T} `{Scalar T} (m m' : GyroscopeMeasurement Imu)
    (imu : View Imu T) (trajectory : View Traj T) :
  t m = t m' -> w m = w m' -> Error m imu trajectory = Error m' imu trajectory.
Proof. intros Ht Hw. unfold Error, Measure. by rewrite Ht, Hw. Qed.

(** ** The residual functor *)

(** C10: the call operator of the residual returns [true] for every
    numeric type, parameter array and output buffer. *)
Theorem Residual_call_returns_true (r : Residual Imu Traj) (T : Type) `{Scalar T}
    (params : list (list T)) (residual : list T) :
  (Residual_call r T params residual).1 = true.
Proof. reflexivity. Qed.

(** The functor evaluates [Error] on the trajectory view over the whole
    array and the IMU view over the array from [NumParameters()] of the
    trajectory's Meta on. *)
Lemma Residual_call_eq (r : Residual Imu Traj) (T : Type) `{Scalar T}
    (params : list (list T)) (residual : list T) :
  Residual_call r T params residual =
  (true,
   list_inserts 0
     (vec_to_list
        (Error (measurement r)
           (Map (drop (NumParameters (trajectory_meta r)) params) (imu_meta r))
           (Map params (trajectory_meta r))))
     residual).
Proof. reflexivity. Qed.

(** Writing a column of three coefficients at the start of a buffer of at
    least three slots replaces the first three and keeps the others. *)
Lemma inserts_column {T} (e : Matrix31 T) (residual : list T) :
  3 <= length residual ->
  list_inserts 0 (vec_to_list e) residual = vec_to_list e ++ drop 3 residual.
Proof.
  intros Hlen.
  rewrite <- (take_drop 3 residual) at 1.
  apply list_inserts_0_r.
  rewrite length_vec_to_list, length_take. lia.
Qed.

(** C4 (the code against the claim): the residual the functor writes does
    not depend on the weight of the measurement.  Two measurements built
    from the same IMU, time and reading with any two weights give the same
    residual for every parameter array. *)
Theorem residual_ignores_weight (imu : Imu) (t0 : double) (w0 : Vector3)
    (weight1 weight2 : double) (imeta : Meta Imu) (tmeta : Meta Traj)
    (T : Type) `{Scalar T} (params : list (list T)) (residual : list T) :
  Residual_call
    {| measurement := GyroscopeMeasurement_new4 imu t0 w0 weight1;
       imu_meta := imeta; trajectory_meta := tmeta |} T params residual
  = Residual_call
    {| measurement := GyroscopeMeasurement_new4 imu t0 w0 weight2;
       imu_meta := imeta; trajectory_meta := tmeta |} T params residual.
Proof.
  rewrite !Residual_call_eq. simpl.
  by rewrite (Error_weight_irrelevant _ (GyroscopeMeasurement_new4 imu t0 w0 weight2)).
Qed.

(** ** AddToEstimator *)

(** The loop over [parameter_info] declares the sizes of its entries, in
    order, after the sizes already declared. *)
Lemma foldl_AddParameterBlock {F} (parameter_info : list ParameterInfo)
    (cf : DynamicAutoDiffCostFunction F) :
  foldl (fun cf pi => CostFunction_AddParameterBlock (size pi) cf) cf parameter_info
  = {| functor_ := functor_ cf;
       block_sizes := block_sizes cf ++ (size <$> parameter_info);
       n_residuals := n_residuals cf |}.
Proof.
  revert cf. induction parameter_info as [|pi parameter_info IH]; intros cf; simpl.
  - rewrite app_nil_r. by destruct cf.
  - rewrite IH. simpl. by rewrite <- app_assoc.
Qed.

(** One run of [AddToEstimator], by the outcome of the two registrations. *)
Lemma AddToEstimator_run (m : GyroscopeMeasurement Imu) (est : TrajectoryEstimator Traj) :
  AddToEstimator {| this := m; estimator := est |} =
  match AddTrajectoryForTimes [(t m, t m)] (Meta_new Traj) [] est with
  | (est1, Throw e) => ({| this := m; estimator := est1 |}, Throw e)
  | (est1, Ok (tmeta, pi_t)) =>
      match AddToProblem (imu_ m) [(t m, t m)] (Meta_new Imu) pi_t (problem_ est1) with
      | (p2, Throw e) => ({| this := m; estimator := set_problem p2 est1 |}, Throw e)
      | (p2, Ok (imeta, parameter_info)) =>
          ({| this := m;
              estimator := set_problem
                {| parameter_block_map := parameter_block_map p2;
                   residual_blocks := residual_blocks p2 ++
                     [ {| cost_function :=
                            {| evaluate := Residual_call
                                 {| measurement := m; imu_meta := imeta;
                                    trajectory_meta := tmeta |};
                               parameter_block_sizes := size <$> parameter_info;
                               num_residuals := 3 |};
                          loss_function := None;
                          parameter_blocks := data <$> parameter_info |} ] |} est1 |},
           Ok ())
      end
  end.
Proof.
  unfold AddToEstimator, mbind, Exc_bind, get_this, on_estimator, on_problem, zoom; simpl.
  destruct (AddTrajectoryForTimes _ _ _ est) as [est1 [[tmeta pi_t]|e]]; simpl; [|done].
  destruct (AddToProblem (imu_ m) _ _ _ _) as [p2 [[imeta parameter_info]|e]]; simpl; [|done].
  unfold AddResidualBlock, as_CostFunction, SetNumResiduals, ToParameterBlocks.
  rewrite foldl_AddParameterBlock. simpl. reflexivity.
Qed.

(** A successful run went through both registrations and appended one
    residual block to the Problem the IMU's registration left. *)
Lemma AddToEstimator_Ok_inv (env env' : Env Imu Traj) :
  AddToEstimator env = (env', Ok ()) ->
  exists est1 tmeta pi_t p2 imeta parameter_info,
    AddTrajectoryForTimes [(t (this env), t (this env))] (Meta_new Traj) []
      (estimator env) = (est1, Ok (tmeta, pi_t))
    /\ AddToProblem (imu_ (this env)) [(t (this env), t (this env))]
         (Meta_new Imu) pi_t (problem_ est1) = (p2, Ok (imeta, parameter_info))
    /\ residual_blocks (problem_ (estimator env')) =
       residual_blocks p2 ++
         [ {| cost_function :=
                {| evaluate := Residual_call
                     {| measurement := this env; imu_meta := imeta;
                        trajectory_meta := tmeta |};
                   parameter_block_sizes := size <$> parameter_info;
                   num_residuals := 3 |};
              loss_function := None;
              parameter_blocks := data <$> parameter_info |} ].
Proof.
  destruct env as [m est]. rewrite AddToEstimator_run. simpl.
  destruct (AddTrajectoryForTimes _ _ _ est) as [est1 [[tmeta pi_t]|e]]; [|done].
  destruct (AddToProblem (imu_ m) _ _ _ _) as [p2 [[imeta parameter_info]|e]] eqn:Himu; [|done].
  intros [= <-]. by exists est1, tmeta, pi_t, p2, imeta, parameter_info.
Qed.

(** C1: when the trajectory's registration, run first on an empty list and
    a fresh Meta, returns [pi_t], and the IMU's registration, run next on the
    Problem and the list the trajectory left, returns [parameter_info], then
    [AddToEstimator] returns after appending one residual block to the
    Problem: its cost function declares one parameter block per entry of
    [parameter_info], with the entry's size and in the list's order, and
    three residuals; its functor holds the measurement and the two Metas
    the registrations filled; no loss function is given; and its parameter
    blocks are the storage locations of [parameter_info], in the list's
    order. *)
Theorem AddToEstimator_two_phase_protocol (m : GyroscopeMeasurement Imu)
    (est est1 : TrajectoryEstimator Traj) (tmeta : Meta Traj) (pi_t : list ParameterInfo)
    (p2 : Problem) (imeta : Meta Imu) (parameter_info : list ParameterInfo) :
  AddTrajectoryForTimes [(t m, t m)] (Meta_new Traj) [] est = (est1, Ok (tmeta, pi_t)) ->
  AddToProblem (imu_ m) [(t m, t m)] (Meta_new Imu) pi_t (problem_ est1)
    = (p2, Ok (imeta, parameter_info)) ->
  AddToEstimator {| this := m; estimator := est |} =
    ({| this := m;
        estimator :=
          {| trajectory_ := trajectory_ est1;
             problem_ :=
               {| parameter_block_map := parameter_block_map p2;
                  residual_blocks := residual_blocks p2 ++
                    [ {| cost_function :=
                           {| evaluate := Residual_call
                                {| measurement := m; imu_meta := imeta;
                                   trajectory_meta := tmeta |};
                              parameter_block_sizes := size <$> parameter_info;
                              num_residuals := 3 |};
                         loss_function := None;
                         parameter_blocks := data <$> parameter_info |} ] |} |} |},
     Ok ()).
Proof.
  intros Htraj Himu. by rewrite AddToEstimator_run, Htraj, Himu.
Qed.

(** The parameter array of a residual block whose storage locations and
    sizes come from one list of parameter infos holds one block per entry. *)
Lemma zip_with_load {T} (load : ptr -> nat -> list T) (parameter_info : list ParameterInfo) :
  zip_with load (data <$> parameter_info) (size <$> parameter_info)
  = (fun pi => load (data pi) (size pi)) <$> parameter_info.
Proof. by rewrite zip_with_fmap_l, zip_with_fmap_r, zip_with_diag. Qed.

(** C2: let the trajectory's registration return the infos [pi_t] and a
    Meta whose [NumParameters()] is their number, and let the IMU's
    registration append the infos [pi_i].  Then the residual block
    [AddToEstimator] appends lists the trajectory's blocks first and the
    IMU's blocks right after; in the parameter array the solver builds for
    it, the first [NumParameters()] blocks are the trajectory's and the rest
    are the IMU's, each in registration order with its registered size; and
    the functor evaluates [Error] on exactly these: the trajectory view at
    offset 0, the IMU view at offset [NumParameters()]. *)
Theorem functor_offsets_match_registration (m : GyroscopeMeasurement Imu)
    (est est1 : TrajectoryEstimator Traj) (tmeta : Meta Traj) (pi_t : list ParameterInfo)
    (p2 : Problem) (imeta : Meta Imu) (pi_i : list ParameterInfo) :
  AddTrajectoryForTimes [(t m, t m)] (Meta_new Traj) [] est = (est1, Ok (tmeta, pi_t)) ->
  NumParameters tmeta = length pi_t ->
  AddToProblem (imu_ m) [(t m, t m)] (Meta_new Imu) pi_t (problem_ est1)
    = (p2, Ok (imeta, pi_t ++ pi_i)) ->
  exists env' rb,
    AddToEstimator {| this := m; estimator := est |} = (env', Ok ())
    /\ last (residual_blocks (problem_ (estimator env'))) = Some rb
    /\ parameter_blocks rb = (data <$> pi_t) ++ (data <$> pi_i)
    /\ parameter_block_sizes (cost_function rb) = (size <$> pi_t) ++ (size <$> pi_i)
    /\ forall (T : Type) (ST : Scalar T) (load : ptr -> nat -> list T) (residual : list T),
         let values := fmap (M := list) (fun pi => load (data pi) (size pi)) in
         take (NumParameters tmeta) (block_values load rb) = values pi_t
         /\ drop (NumParameters tmeta) (block_values load rb) = values pi_i
         /\ evaluate (cost_function rb) T ST (block_values load rb) residual
            = (true,
               list_inserts 0
                 (vec_to_list
                    (Error m (Map (values pi_i) imeta)
                       (Map (values pi_t ++ values pi_i) tmeta)))
                 residual).
Proof.
  intros Htraj Hnum Himu.
  eexists _, _. split.
  { rewrite AddToEstimator_run, Htraj, Himu. reflexivity. }
  simpl. rewrite last_snoc. split; [done|]. simpl.
  rewrite !fmap_app. do 2 (split; [done|]).
  intros T ST load residual. unfold block_values; simpl.
  rewrite <- !fmap_app, zip_with_load, fmap_app.
  rewrite Residual_call_eq; simpl.
  rewrite Hnum, <- (length_fmap (fun pi => load (data pi) (size pi)) pi_t).
  by rewrite take_app_length, drop_app_length.
Qed.

(** The functor overwrites the first three slots of the output buffer with
    a column that does not depend on the buffer, and leaves the others. *)
Lemma Residual_call_writes_three (r : Residual Imu Traj) (T : Type) `{Scalar T}
    (params : list (list T)) :
  exists e : Matrix31 T, forall residual : list T,
    3 <= length residual ->
    (Residual_call r T params residual).2 = vec_to_list e ++ drop 3 residual.
Proof.
  eexists. intros residual Hlen. rewrite Residual_call_eq. simpl.
  by apply inserts_column.
Qed.

(** C5: the residual block a successful [AddToEstimator] appends reports
    three residuals, whatever the number of parameter blocks the two
    registrations returned, and its functor writes three output components:
    on a buffer of at least three slots, the first three are replaced by the
    error column and every further slot is left as it was. *)
Theorem residual_dimension_is_three (env env' : Env Imu Traj) :
  AddToEstimator env = (env', Ok ()) ->
  exists rb,
    last (residual_blocks (problem_ (estimator env'))) = Some rb
    /\ num_residuals (cost_function rb) = 3
    /\ forall (T : Type) (ST : Scalar T) (params : list (list T)),
         exists e : Matrix31 T, forall residual : list T,
           3 <= length residual ->
           (evaluate (cost_function rb) T ST params residual).2
           = vec_to_list e ++ drop 3 residual.
Proof.
  intros (p1 & tmeta & pi_t & p2 & imeta & parameter_info & _ & _ & ->)%AddToEstimator_Ok_inv.
  eexists. split; [apply last_snoc|]. split; [done|].
  intros T ST params. cbn [cost_function evaluate]. apply Residual_call_writes_three.
Qed.

(** When the trajectory's registration throws, [AddToEstimator] throws the
    same error at once: the IMU is not asked to register and no residual
    block is submitted.  The estimator is left as the failed registration
    left it. *)
Lemma AddToEstimator_trajectory_failure (m : GyroscopeMeasurement Imu)
    (est est1 : TrajectoryEstimator Traj) (e : Error_t) :
  AddTrajectoryForTimes [(t m, t m)] (Meta_new Traj) [] est = (est1, Throw e) ->
  AddToEstimator {| this := m; estimator := est |}
  = ({| this := m; estimator := est1 |}, Throw e).
Proof.
  intros Htraj. by rewrite AddToEstimator_run, Htraj.
Qed.

(** C6: let the trajectory's registration keep the out-of-support contract.
    Then for every measurement whose timestamp lies outside the support of
    the trajectory, [AddToEstimator] fails with [OutOfSupportError] and
    leaves everything as it was: the measurement, the estimator, the
    registry of parameter blocks and the residual blocks of the Problem are
    those before the call.  The registration of the trajectory is the first
    call of [AddToEstimator] that touches the Problem; after its failure
    the IMU is not asked to register and no residual block is submitted, so
    there is nothing to roll back. *)
Theorem AddToEstimator_out_of_support
    (in_support : TrajectoryEstimator Traj -> double * double -> bool)
    (env : Env Imu Traj) :
  out_of_support_contract in_support ->
  in_support (estimator env) (t (this env), t (this env)) = false ->
  AddToEstimator env = (env, Throw OutOfSupportError)
  /\ parameter_block_map (problem_ (estimator (AddToEstimator env).1))
     = parameter_block_map (problem_ (estimator env))
  /\ residual_blocks (problem_ (estimator (AddToEstimator env).1))
     = residual_blocks (problem_ (estimator env)).
Proof.
  intros Hcontract Hout. destruct env as [m est]. simpl in Hout.
  assert (Hrun : AddToEstimator {| this := m; estimator := est |}
                 = ({| this := m; estimator := est |}, Throw OutOfSupportError)).
  { apply AddToEstimator_trajectory_failure, Hcontract. simpl. by rewrite Hout. }
  by rewrite Hrun.
Qed.

(** C8: [AddToEstimator], whether it returns or throws, leaves the
    measurement as it was: same time, same reading, same weight, same IMU.
    ([Measure] and [Error] are const members: functions of the measurement
    that return a column and nothing else.) *)
Theorem measurement_is_read_only (env : Env Imu Traj) :
  t (this (AddToEstimator env).1) = t (this env)
  /\ w (this (AddToEstimator env).1) = w (this env)
  /\ weight (this (AddToEstimator env).1) = weight (this env)
  /\ imu_ (this (AddToEstimator env).1) = imu_ (this env).
Proof.
  assert (this (AddToEstimator env).1 = this env) as ->; [|done].
  destruct env as [m est]. rewrite AddToEstimator_run.
  destruct (AddTrajectoryForTimes _ _ _ est) as [est1 [[tmeta pi_t]|e]]; [|done].
  by destruct (AddToProblem (imu_ m) _ _ _ _) as [p2 [[imeta parameter_info]|e]].
Qed.

End Properties.

(** * The properties on the concrete models *)

Section Runs.
Import Models.

(** The residual [AddToEstimator] submits for [measurement0], evaluated on
    parameters that are all zero, is the reading itself. *)
Example residual_of_measurement0 :
  (fun rb => evaluate (cost_function rb) double _ (block_values zeros rb)
               [5%float; 5%float; 5%float; 5%float])
  <$> residual_blocks (problem_ (estimator (AddToEstimator env0).1))
  = [ (true, [1%float; 0%float; 0%float; 5%float]) ].
Proof. vm_compute. reflexivity. Qed.

(** Run of C1: the measurement at time 2 registers the trajectory's block
    (stored at 16) and then the bias block (stored at 64), each of size 3. *)
Lemma AddToEstimator_two_phase_protocol_run :
  exists env',
    AddToEstimator env0 = (env', Ok ())
    /\ (fun rb => (parameter_blocks rb, parameter_block_sizes (cost_function rb),
                   num_residuals (cost_function rb), loss_function rb))
       <$> residual_blocks (problem_ (estimator env'))
       = [ ([16%N; 64%N], [3; 3], 3, None) ].
Proof.
  eexists. split.
  - eapply (AddToEstimator_two_phase_protocol measurement0 estimator0); reflexivity.
  - vm_compute. reflexivity.
Defined.

(** Run of C2: in the array built for the submitted block, the first block
    is the trajectory's and the second the IMU's. *)
Lemma functor_offsets_match_registration_run :
  exists rb,
    last (residual_blocks (problem_ (estimator (AddToEstimator env0).1))) = Some rb
    /\ parameter_blocks rb = [16%N; 64%N]
    /\ take 1 (block_values zeros rb) = [zeros 16%N 3]
    /\ drop 1 (block_values zeros rb) = [zeros 64%N 3].
Proof.
  edestruct (functor_offsets_match_registration measurement0 estimator0)
    as (env' & rb & Hrun & Hlast & Hblocks & _ & Hvalues).
  - reflexivity.
  - reflexivity.
  - reflexivity.
  - exists rb. change (AddToEstimator env0 = (env', Ok ())) in Hrun. rewrite Hrun.
    destruct (Hvalues double _ zeros []) as (Htake & Hdrop & _).
    repeat split; assumption.
Defined.

(** Run of C5: the block submitted for [measurement0] reports three
    residuals and its functor writes three components. *)
Lemma residual_dimension_is_three_run :
  exists rb,
    last (residual_blocks (problem_ (estimator (AddToEstimator env0).1))) = Some rb
    /\ num_residuals (cost_function rb) = 3
    /\ forall (T : Type) (ST : Scalar T) (params : list (list T)),
         exists e : Matrix31 T, forall residual : list T,
           3 <= length residual ->
           (evaluate (cost_function rb) T ST params residual).2
           = vec_to_list e ++ drop 3 residual.
Proof. apply (residual_dimension_is_three env0). reflexivity. Defined.

(** [delegate_to_trajectory] over a [SegmentTrajectory] keeps the
    out-of-support contract: the spans are checked before anything is
    registered. *)
Lemma SegmentTrajectory_out_of_support_contract :
  out_of_support_contract
    (fun est : TrajectoryEstimator SegmentTrajectory => in_support (trajectory_ est)).
Proof.
  intros times meta parameter_info [tr p] Hout. simpl in Hout.
  unfold AddTrajectoryForTimes, SegmentTrajectory_estimator, delegate_to_trajectory,
    on_problem, zoom. simpl.
  unfold SegmentTrajectory_AddToProblem, check_support, mbind, Exc_bind, throw.
  by rewrite Hout.
Qed.

(** Run of C6: the reading at time 12 is outside the support from 0 to 10
    of [trajectory0]; adding it fails with [OutOfSupportError] and the
    registry and the residual blocks stay empty. *)
Lemma AddToEstimator_out_of_support_run :
  in_support trajectory0 (t measurement_late, t measurement_late) = false
  /\ AddToEstimator env_late = (env_late, Throw OutOfSupportError)
  /\ parameter_block_map (problem_ (estimator (AddToEstimator env_late).1)) = ∅
  /\ residual_blocks (problem_ (estimator (AddToEstimator env_late).1)) = [].
Proof.
  split; [reflexivity|].
  apply (AddToEstimator_out_of_support
           (fun est : TrajectoryEstimator SegmentTrajectory => in_support (trajectory_ est))
           env_late SegmentTrajectory_out_of_support_contract).
  reflexivity.
Defined.

(** C4 on numbers: the reading (1, 0, 0) against a prediction of zero gives
    the residual (1, 0, 0) with weight 1 and with weight 2. *)
Example weighted_readings_same_residual :
  let r (weight0 : double) : Residual BiasImu SegmentTrajectory :=
    set_trajectory_meta (Traj := SegmentTrajectory) 1
      (set_imu_meta (Traj := SegmentTrajectory) 1
         (Residual_new (GyroscopeMeasurement_new4 imu0 2%float reading weight0))) in
  let params := [zeros 16%N 3; zeros 64%N 3] in
  let buffer := [5%float; 5%float; 5%float] in
  Residual_call (r 1%float) double params buffer = (true, [1%float; 0%float; 0%float])
  /\ Residual_call (r 2%float) double params buffer = (true, [1%float; 0%float; 0%float]).
Proof. split; vm_compute; reflexivity. Qed.

End Runs.


(** * Further properties of [AddToEstimator] and of the residual functor *)

Section MoreProperties.
Context {Imu Traj : Type} `{ImuModel Imu Traj} `{!EstimatorModel Traj}.

(** X1: when the trajectory's registration returns and the IMU's throws,
    [AddToEstimator] throws the IMU's error.  The estimator keeps what both
    registrations did to it (the trajectory's registration is not undone),
    and nothing more: no residual block is submitted. *)
Theorem AddToEstimator_imu_failure (m : GyroscopeMeasurement Imu)
    (est est1 : TrajectoryEstimator Traj) (tmeta : Meta Traj) (pi_t : list ParameterInfo)
    (p2 : Problem) (e : Error_t) :
  AddTrajectoryForTimes [(t m, t m)] (Meta_new Traj) [] est = (est1, Ok (tmeta, pi_t)) ->
  AddToProblem (imu_ m) [(t m, t m)] (Meta_new Imu) pi_t (problem_ est1) = (p2, Throw e) ->
  AddToEstimator {| this := m; estimator := est |}
  = ({| this := m; estimator := {| trajectory_ := trajectory_ est1; problem_ := p2 |} |},
     Throw e).
Proof. intros Htraj Himu. by rewrite AddToEstimator_run, Htraj, Himu. Qed.

(** X2: let the two registrations leave the residual blocks of the Problem
    alone.  Then an [AddToEstimator] that returns has appended exactly one
    residual block after the ones that were there, and an [AddToEstimator]
    that throws has left the residual blocks as they were. *)
Theorem AddToEstimator_residual_blocks (env : Env Imu Traj) :
  (forall times meta parameter_info (est : TrajectoryEstimator Traj),
     residual_blocks (problem_ (AddTrajectoryForTimes times meta parameter_info est).1)
     = residual_blocks (problem_ est)) ->
  (forall (imu : Imu) times meta parameter_info (p : Problem),
     residual_blocks (AddToProblem imu times meta parameter_info p).1 = residual_blocks p) ->
  match (AddToEstimator env).2 with
  | Ok _ =>
      exists rb,
        residual_blocks (problem_ (estimator (AddToEstimator env).1))
        = residual_blocks (problem_ (estimator env)) ++ [rb]
  | Throw _ =>
      residual_blocks (problem_ (estimator (AddToEstimator env).1))
      = residual_blocks (problem_ (estimator env))
  end.
Proof.
  intros Htraj Himu. destruct env as [m est]. rewrite AddToEstimator_run. simpl.
  specialize (Htraj [(t m, t m)] (Meta_new Traj) [] est).
  destruct (AddTrajectoryForTimes _ _ _ est) as [est1 [[tmeta pi_t]|e]]; simpl in *; [|done].
  specialize (Himu (imu_ m) [(t m, t m)] (Meta_new Imu) pi_t (problem_ est1)).
  destruct (AddToProblem (imu_ m) _ _ _ _) as [p2 [[imeta parameter_info]|e]]; simpl in *.
  - eexists. by rewrite Himu, Htraj.
  - by rewrite Himu, Htraj.
Qed.

(** X3: the residual block of an [AddToEstimator] that returned is well
    formed for the solver, whatever the registrations did: its cost
    function declares as many parameter blocks as the block lists storage
    locations, and it carries no loss function. *)
Theorem submitted_block_arity (env env' : Env Imu Traj) :
  AddToEstimator env = (env', Ok ()) ->
  exists rb,
    last (residual_blocks (problem_ (estimator env'))) = Some rb
    /\ length (parameter_block_sizes (cost_function rb)) = length (parameter_blocks rb)
    /\ loss_function rb = None.
Proof.
  intros (est1 & tmeta & pi_t & p2 & imeta & parameter_info & _ & _ & ->)%AddToEstimator_Ok_inv.
  eexists. split; [apply last_snoc|]. simpl. by rewrite !length_fmap.
Qed.

(** X4: what [AddToEstimator] does to the estimator does not depend on the
    reading or on the weight.  Two measurements with the same IMU and time
    have the same outcome, leave the same trajectory and the same registry
    of parameter blocks, and leave residual blocks with the same storage
    locations, declared sizes, residual counts and loss functions. *)
Theorem AddToEstimator_footprint (imu : Imu) (t0 : double) (w1 w2 : Vector3)
    (weight1 weight2 : double) (est : TrajectoryEstimator Traj) :
  let run m := AddToEstimator {| this := m; estimator := est |} in
  let shape rb := (parameter_blocks rb, parameter_block_sizes (cost_function rb),
                   num_residuals (cost_function rb), loss_function rb) in
  let r1 := run (GyroscopeMeasurement_new4 imu t0 w1 weight1) in
  let r2 := run (GyroscopeMeasurement_new4 imu t0 w2 weight2) in
  r1.2 = r2.2
  /\ trajectory_ (estimator r1.1) = trajectory_ (estimator r2.1)
  /\ parameter_block_map (problem_ (estimator r1.1))
     = parameter_block_map (problem_ (estimator r2.1))
  /\ shape <$> residual_blocks (problem_ (estimator r1.1))
     = shape <$> residual_blocks (problem_ (estimator r2.1)).
Proof.
  cbv zeta beta. rewrite !AddToEstimator_run. simpl.
  destruct (AddTrajectoryForTimes _ _ _ est) as [est1 [[tmeta pi_t]|e]]; simpl; [|done].
  destruct (AddToProblem imu _ _ _ _) as [p2 [[imeta parameter_info]|e]]; simpl; [|done].
  by rewrite !fmap_app.
Qed.

(** X5: [AddToEstimator] does not look whether the measurement was added
    before.  When the two registrations, repeated on the estimator the
    first run left, return what they returned the first time and leave the
    residual blocks alone, the second run returns as well and the Problem
    ends with the same residual block twice. *)
Theorem AddToEstimator_twice (m : GyroscopeMeasurement Imu)
    (est est1 est3 : TrajectoryEstimator Traj) (tmeta : Meta Traj)
    (pi_t : list ParameterInfo) (p2 p4 : Problem) (imeta : Meta Imu)
    (parameter_info : list ParameterInfo) :
  let env1 := (AddToEstimator {| this := m; estimator := est |}).1 in
  AddTrajectoryForTimes [(t m, t m)] (Meta_new Traj) [] est = (est1, Ok (tmeta, pi_t)) ->
  AddToProblem (imu_ m) [(t m, t m)] (Meta_new Imu) pi_t (problem_ est1)
    = (p2, Ok (imeta, parameter_info)) ->
  AddTrajectoryForTimes [(t m, t m)] (Meta_new Traj) [] (estimator env1)
    = (est3, Ok (tmeta, pi_t)) ->
  AddToProblem (imu_ m) [(t m, t m)] (Meta_new Imu) pi_t (problem_ est3)
    = (p4, Ok (imeta, parameter_info)) ->
  residual_blocks p4 = residual_blocks (problem_ (estimator env1)) ->
  exists env2 rb,
    AddToEstimator env1 = (env2, Ok ())
    /\ residual_blocks (problem_ (estimator env2)) = residual_blocks p2 ++ [rb; rb]
    /\ parameter_blocks rb = data <$> parameter_info
    /\ parameter_block_sizes (cost_function rb) = size <$> parameter_info.
Proof.
  cbv zeta. rewrite (AddToEstimator_run m est). intros Htraj Himu. rewrite Htraj, Himu.
  simpl. intros Htraj' Himu' Hframe.
  eexists _, _. split.
  { rewrite AddToEstimator_run, Htraj', Himu'. reflexivity. }
  simpl. rewrite Hframe, <- app_assoc. done.
Qed.

(** Writing a column into a buffer commutes with mapping a function over
    both. *)
Lemma fmap_list_inserts {A B} (f : A -> B) (i : nat) (k l : list A) :
  f <$> list_inserts i k l = list_inserts i (f <$> k) (f <$> l).
Proof.
  revert i. induction k as [|x k IH]; intros i; simpl; [done|].
  by rewrite list_fmap_insert, IH.
Qed.

(** X6: the functor is one code path for every numeric type.  Let [h] map
    a numeric type [T] to a numeric type [U], keeping constants and
    subtraction, and let the IMU's gyroscope model commute with [h].  Then
    evaluating the functor in [U] on the image of the parameters and of
    the buffer gives the image of what it gives in [T]. *)
Theorem Residual_call_natural (r : Residual Imu Traj) {T U : Type}
    `{ST : Scalar T} `{SU : Scalar U} (h : T -> U) :
  (forall x : double, h (of_double x) = of_double x) ->
  (forall a b : T, h (tsub a b) = tsub (h a) (h b)) ->
  (forall (imu : View Imu T) (trajectory : View Traj T) (x : T),
     vmap h (Gyroscope imu trajectory x)
     = Gyroscope (Map (fmap (M := list) h <$> view_params imu) (view_meta imu))
         (Map (fmap (M := list) h <$> view_params trajectory) (view_meta trajectory))
         (h x)) ->
  forall (params : list (list T)) (residual : list T),
    Residual_call r U (fmap (M := list) h <$> params) (h <$> residual)
    = ((Residual_call r T params residual).1,
       h <$> (Residual_call r T params residual).2).
Proof.
  intros Hconst Hsub Hgyro params residual.
  rewrite !Residual_call_eq. simpl. f_equal.
  rewrite fmap_list_inserts, <- vec_to_list_map. do 2 f_equal.
  unfold Error, msub, cast, Measure. apply vec_eq. intros i.
  rewrite vlookup_map, !vlookup_zip_with, !vlookup_map, Hsub, Hconst.
  f_equal. symmetry. rewrite <- (vlookup_map h), Hgyro. simpl.
  by rewrite fmap_drop, Hconst.
Qed.

(** X7: [AddToEstimator] raises no error of its own.  When it throws, the
    trajectory's registration threw that error, or it returned and the
    IMU's registration threw it; the estimator is the one that
    registration left. *)
Theorem AddToEstimator_Throw_inv (env env' : Env Imu Traj) (e : Error_t) :
  AddToEstimator env = (env', Throw e) ->
  AddTrajectoryForTimes [(t (this env), t (this env))] (Meta_new Traj) []
    (estimator env) = (estimator env', Throw e)
  \/ exists est1 tmeta pi_t,
       AddTrajectoryForTimes [(t (this env), t (this env))] (Meta_new Traj) []
         (estimator env) = (est1, Ok (tmeta, pi_t))
       /\ AddToProblem (imu_ (this env)) [(t (this env), t (this env))]
            (Meta_new Imu) pi_t (problem_ est1)
          = (problem_ (estimator env'), Throw e)
       /\ trajectory_ (estimator env') = trajectory_ est1.
Proof.
  destruct env as [m est]. rewrite AddToEstimator_run. simpl.
  destruct (AddTrajectoryForTimes _ _ _ est) as [est1 [[tmeta pi_t]|e1]].
  - destruct (AddToProblem (imu_ m) _ _ _ _) as [p2 [[imeta parameter_info]|e2]] eqn:Himu;
      [done|].
    intros [= <- <-]. right. exists est1, tmeta, pi_t. by rewrite Himu.
  - intros [= <- <-]. by left.
Qed.

End MoreProperties.

(** * The further properties on the concrete models *)

Section MoreRuns.
Import Models MoreModels.

(** Run of X1: the bias block of [imu0] is already registered with another
    size, so the IMU's registration throws after the trajectory registered
    its block at 16; the block stays and no residual block is there. *)
Lemma AddToEstimator_imu_failure_run :
  exists env',
    AddToEstimator env_conflict = (env', Throw RegistrationConsistencyError)
    /\ parameter_block_map (problem_ (estimator env_conflict)) !! 16%N = None
    /\ parameter_block_map (problem_ (estimator env')) !! 16%N = Some 3
    /\ residual_blocks (problem_ (estimator env')) = [].
Proof.
  eexists. split.
  - eapply (AddToEstimator_imu_failure measurement0 estimator_conflict); reflexivity.
  - repeat split; vm_compute; reflexivity.
Defined.

Lemma AddParameterBlock_residual_blocks (values : ptr) (sz : nat) (p : Problem) :
  residual_blocks (AddParameterBlock values sz p).1 = residual_blocks p.
Proof.
  unfold AddParameterBlock. destruct (parameter_block_map p !! values); [|done].
  by case_decide.
Qed.

Lemma SegmentTrajectory_residual_blocks (tr : SegmentTrajectory) times meta
    parameter_info (p : Problem) :
  residual_blocks (AddToProblem tr times meta parameter_info p).1 = residual_blocks p.
Proof.
  simpl. unfold SegmentTrajectory_AddToProblem, check_support, throw, mbind, Exc_bind,
    mret, Exc_ret.
  pose proof (AddParameterBlock_residual_blocks (storage tr) 3 p) as Hadd.
  destruct (forallb (in_support tr) times); simpl; [|done].
  by destruct (AddParameterBlock (storage tr) 3 p) as [p' [[]|e]].
Qed.

Lemma SegmentTrajectory_estimator_residual_blocks times meta parameter_info
    (est : TrajectoryEstimator SegmentTrajectory) :
  residual_blocks (problem_ (AddTrajectoryForTimes times meta parameter_info est).1)
  = residual_blocks (problem_ est).
Proof.
  unfold AddTrajectoryForTimes, SegmentTrajectory_estimator, delegate_to_trajectory,
    on_problem, zoom.
  pose proof (SegmentTrajectory_residual_blocks (trajectory_ est) times meta
                parameter_info (problem_ est)) as Hreg.
  by destruct (AddToProblem (trajectory_ est) _ _ _ _) as [p r].
Qed.

Lemma BiasImu_residual_blocks (imu : BiasImu) times meta parameter_info (p : Problem) :
  residual_blocks (AddToProblem imu times meta parameter_info p).1 = residual_blocks p.
Proof.
  simpl. unfold BiasImu_AddToProblem, mbind, Exc_bind, mret, Exc_ret.
  pose proof (AddParameterBlock_residual_blocks (bias_storage imu) 3 p) as Hadd.
  destruct (AddParameterBlock (bias_storage imu) 3 p) as [p' [[]|e]]; done.
Qed.

(** Run of X2: the models register parameter blocks only, and adding
    [measurement0] to the empty Problem leaves one residual block. *)
Lemma AddToEstimator_residual_blocks_run :
  exists rb,
    residual_blocks (problem_ (estimator (AddToEstimator env0).1))
    = residual_blocks (problem_ (estimator env0)) ++ [rb].
Proof.
  exact (AddToEstimator_residual_blocks env0
           SegmentTrajectory_estimator_residual_blocks BiasImu_residual_blocks).
Defined.

(** Run of X3: the block submitted for [measurement0] declares two sizes
    for two storage locations. *)
Lemma submitted_block_arity_run :
  exists rb,
    last (residual_blocks (problem_ (estimator (AddToEstimator env0).1))) = Some rb
    /\ length (parameter_block_sizes (cost_function rb)) = length (parameter_blocks rb)
    /\ loss_function rb = None.
Proof. apply (submitted_block_arity env0). reflexivity. Defined.

(** Run of X5: [measurement0] added twice leaves two residual blocks on the
    same two storage locations. *)
Lemma AddToEstimator_twice_run :
  exists env2 rb,
    AddToEstimator (AddToEstimator env0).1 = (env2, Ok ())
    /\ residual_blocks (problem_ (estimator env2)) = [rb; rb]
    /\ parameter_blocks rb = [16%N; 64%N]
    /\ parameter_block_sizes (cost_function rb) = [3; 3].
Proof.
  edestruct (AddToEstimator_twice measurement0 estimator0)
    as (env2 & rb & Hrun & Hblocks & Hptr & Hsizes).
  - reflexivity.
  - reflexivity.
  - reflexivity.
  - reflexivity.
  - reflexivity.
  - exists env2, rb. repeat split; assumption.
Defined.

(** The gyroscope model of [BiasImu] commutes with taking the value of a
    dual number. *)
Lemma BiasImu_Gyroscope_value (imu : View BiasImu Dual)
    (trajectory : View SegmentTrajectory Dual) (x : Dual) :
  vmap value (Gyroscope imu trajectory x)
  = Gyroscope (Map (fmap (M := list) value <$> view_params imu) (view_meta imu))
      (Map (fmap (M := list) value <$> view_params trajectory) (view_meta trajectory))
      (value x).
Proof.
  assert (Hcoef : forall E (HE : Entity E) (v : View E Dual) b i,
            value (coef v b i)
            = coef (Map (fmap (M := list) value <$> view_params v) (view_meta v)) b i).
  { intros E HE v b i. unfold coef. simpl. rewrite list_lookup_fmap.
    destruct (view_params v !! b) as [block|]; simpl; [|done].
    rewrite list_lookup_fmap. by destruct (block !! i). }
  simpl. by rewrite <- !Hcoef.
Qed.

(** Run of X6: evaluating the functor of [measurement0] on dual numbers and
    keeping the values gives the evaluation on the values. *)
Lemma Residual_call_natural_run :
  Residual_call residual0 double (fmap (M := list) value <$> dual_params)
    (value <$> dual_buffer)
  = ((Residual_call residual0 Dual dual_params dual_buffer).1,
     value <$> (Residual_call residual0 Dual dual_params dual_buffer).2).
Proof.
  apply (Residual_call_natural residual0 value).
  - reflexivity.
  - reflexivity.
  - apply BiasImu_Gyroscope_value.
Defined.

(** The functor of [measurement0] on the dual parameters: the residual
    1 - (0.5 + 0.25) with derivative -1 along the trajectory's first
    coefficient. *)
Example residual_of_dual_params :
  (Residual_call residual0 Dual dual_params dual_buffer).2
  = [ {| value := 0.25%float; derivative := (-1)%float |};
      {| value := 0%float; derivative := 0%float |};
      {| value := 0%float; derivative := 0%float |} ].
Proof. vm_compute. reflexivity. Qed.

(** Run of X7: the late reading is refused by the trajectory's
    registration, and that is the error [AddToEstimator] throws. *)
Lemma AddToEstimator_Throw_inv_run :
  AddTrajectoryForTimes [(t (this env_late), t (this env_late))]
    (Meta_new SegmentTrajectory) [] (estimator env_late)
    = (estimator env_late, Throw OutOfSupportError)
  \/ exists est1 tmeta pi_t,
       AddTrajectoryForTimes [(t (this env_late), t (this env_late))]
         (Meta_new SegmentTrajectory) [] (estimator env_late) = (est1, Ok (tmeta, pi_t))
       /\ AddToProblem (imu_ (this env_late)) [(t (this env_late), t (this env_late))]
            (Meta_new BiasImu) pi_t (problem_ est1)
          = (problem_ (estimator env_late), Throw OutOfSupportError)
       /\ trajectory_ (estimator env_late) = trajectory_ est1.
Proof. apply (AddToEstimator_Throw_inv env_late env_late). reflexivity. Defined.

End MoreRuns.
